(** * sevsu_sheets_parser: the schedule-page parser and the SQL request builder

    A shallow embedding of [src/html_parser.py] and of the INSERT request
    builder of [src/db.py], together with the properties of the semester
    segmentation, the link filter, the fetch check and the INSERT request.

    Representation choices.
    - A Python [str] is a [string] holding its UTF-8 encoding.  Concatenation,
      substring search, replacement of a character and splitting at an ASCII
      character act on the encoding exactly as they act on the code points.
    - A Python [int] is a [Z]; list indices and slice bounds follow Python's
      rules for negative and out-of-range values.
    - A raised exception is the [Raise] case of [result]; effects of [main]
      (the request, the directory, the saved files) are collected in a trace. *)

From Stdlib Require Import ZArith Lia String Ascii List DecimalString Sorted.
From stdpp Require Import base tactics option list strings.

Open Scope string_scope.
Open Scope list_scope.
Open Scope Z_scope.

(** ** Python values and built-in operations used by the sources *)

Module Py.

Inductive exn : Set :=
| AttributeError   (* attribute access on None *)
| IndexError.      (* list index out of range *)

Inductive result (A : Type) : Type :=
| Ok (a : A)
| Raise (e : exn).
Arguments Ok {A} a.
Arguments Raise {A} e.

Definition bind {A B} (m : result A) (k : A -> result B) : result B :=
  match m with
  | Ok a => k a
  | Raise e => Raise e
  end.

(** [clamp n k] is the position a slice bound [k] denotes in a sequence of
    length [n]: a negative bound counts from the end, and the outcome is cut
    to the range [0..n]. *)
Definition clamp (n : nat) (k : Z) : nat :=
  Z.to_nat (if k <? 0 then Z.max 0 (Z.of_nat n + k) else Z.min k (Z.of_nat n)).

(** [l[:k]] *)
Definition slice_to {A} (l : list A) (k : Z) : list A :=
  take (clamp (length l) k) l.

(** [l[k:]] *)
Definition slice_from {A} (l : list A) (k : Z) : list A :=
  drop (clamp (length l) k) l.

(** [l[i]] *)
Definition getitem {A} (l : list A) (i : Z) : result A :=
  let j := if i <? 0 then Z.of_nat (length l) + i else i in
  if j <? 0 then Raise IndexError
  else match l !! Z.to_nat j with
       | Some x => Ok x
       | None => Raise IndexError
       end.

(** [range(n)] *)
Definition range (n : nat) : list Z := map Z.of_nat (seq 0 n).

(** [s[:k]] on a string; the sources cut off ASCII characters only, so
    counting bytes and counting characters agree. *)
Definition str_slice_to (s : string) (k : Z) : string :=
  string_of_list_ascii (slice_to (list_ascii_of_string s) k).

(** [needle in s] *)
Fixpoint contains (needle s : string) : bool :=
  String.prefix needle s ||
  match s with
  | EmptyString => false
  | String _ s' => contains needle s'
  end.

(** [s.replace('\xa0', ' ')]: U+00A0 is encoded by the bytes 194 160. *)
Fixpoint replace_nbsp (s : string) : string :=
  match s with
  | EmptyString => EmptyString
  | String c rest =>
      match rest with
      | String d rest' =>
          if (Ascii.eqb c "194" && Ascii.eqb d "160")%bool
          then String " " (replace_nbsp rest')
          else String c (replace_nbsp rest)
      | EmptyString => String c EmptyString
      end
  end.

(** ['\xa0'], the no-break space U+00A0. *)
Definition NBSP : string := String "194" (String "160" EmptyString).

(** [str(n)] for a non-negative [n]. *)
Definition str_of_nat (n : nat) : string :=
  NilEmpty.string_of_uint (Nat.to_uint n).

(** [enumerate(l)] *)
Definition enumerate {A} (l : list A) : list (nat * A) :=
  combine (seq 0 (length l)) l.

(** [a == b] where each side is a string or None. *)
Definition opt_eqb (a b : option string) : bool :=
  match a, b with
  | Some x, Some y => String.eqb x y
  | None, None => true
  | _, _ => false
  end.

End Py.

Notation "'do' x <- m ; k" := (Py.bind m (fun x => k))
  (at level 10, x name, m at level 100, k at level 200).

Import Py.

(** ** The page as the parser sees it *)

(** An [<a>] element, by its [href]; every anchor is taken to have one. *)
Record Anchor : Set := { href : string }.

(** One institute block ([div.su-spoiler]): the text of its first [h3] if any,
    the texts of its [p] elements in document order, and the anchors inside
    its first [div.su-clearfix] if there is one. *)
Record Tag : Set := {
  find_h3 : option string;
  find_all_p : list string;
  find_su_clearfix : option (list Anchor)
}.

(** The answer to the request: the status code and the parsed text, in which
    [div.su-column-content] holds the institute blocks when it is present. *)
Record Response : Set := {
  status_code : Z;
  su_column_content : option (list Tag)
}.

(** What the parser takes from outside [src/]: [str.lower] of the language,
    the calendar and transliteration helpers of [utils], and the network.
    The calendar gives one answer throughout a run, and the helpers and the
    functions of [system] return without raising. *)
Class Env : Type := {
  str_lower : string -> string;
  get_current_semester : Z;
  transliteration_to_en_from_ru : string -> string;
  requests_get : string -> list (string * string) -> Response
}.

(** What [main] does to the outside world, in the order it happens. *)
Inductive event : Set :=
| Get (url : string) (headers : list (string * string))
| MakeDirectory (name : string)
| SaveFile (path name url : string) (extension : option string).

(** A computation with effects: its outcome and the events it caused, an
    exception ending the trace where it was raised. *)
Definition IO (A : Type) : Type := result A * list event.

Definition io_ret {A} (a : A) : IO A := (Ok a, []).

Definition io_bind {A B} (m : IO A) (k : A -> IO B) : IO B :=
  match fst m with
  | Ok a => (fst (k a), snd m ++ snd (k a))
  | Raise e => (Raise e, snd m)
  end.

Definition emit (e : event) : IO unit := (Ok tt, [e]).

Definition lift {A} (m : result A) : IO A := (m, []).

Notation "'io' x <- m ; k" := (io_bind m (fun x => k))
  (at level 10, x name, m at level 100, k at level 200).

(** [for x in l: body(x)] *)
Fixpoint for_each {A} (body : A -> IO unit) (l : list A) : IO unit :=
  match l with
  | [] => io_ret tt
  | x :: l' => io _ <- body x; for_each body l'
  end.

(** The events of the turns of a loop over [l], each turn run to its end. *)
Definition traces {A} (body : A -> IO unit) (l : list A) : list event :=
  concat (map (fun x => snd (body x)) l).

Definition BASE_URL : string := "https://www.sevsu.ru".
Definition URL : string := "https://www.sevsu.ru/univers/shedule".
Definition HEADERS : list (string * string) :=
  [("User-Agent",
    "Mozilla/5.0 (Windows NT 10.0; Win64; x64; rv:99.0) Gecko/20100101 Firefox/99.0")].

(** [c] is one of the characters of [s]. *)
Fixpoint occurs (c : ascii) (s : string) : Prop :=
  match s with
  | EmptyString => False
  | String a s' => a = c \/ occurs c s'
  end.

(** The part of [s] after its last [c], or None when [c] does not occur. *)
Fixpoint after_last (c : ascii) (s : string) : option string :=
  match s with
  | EmptyString => None
  | String a s' =>
      match after_last c s' with
      | Some t => Some t
      | None => if Ascii.eqb a c then Some s' else None
      end
  end.

Section Parser.
Context {env : Env}.

(** Modelled from the spec: [utils.get_extension] is not under [src/].
    Section 6 describes it as [extensionOf(url)]: the lower-cased substring
    after the final '.', and none if no '.' is present. *)
Definition get_extension (url : string) : option string :=
  match after_last "." url with
  | Some suffix => Some (str_lower suffix)
  | None => None
  end.

Definition get_institute_name (soup : Tag) : result string :=
  match find_h3 soup with
  | Some text => Ok text
  | None => Raise AttributeError
  end.

Definition get_files_url (soup : Tag) : result (list string) :=
  match find_su_clearfix soup with
  | None => Raise AttributeError
  | Some links =>
      let links := map href links in
      Ok (List.filter
            (fun link => opt_eqb (get_extension link) (Some "xls")
                         || opt_eqb (get_extension link) (Some "xlsx"))
            links)
  end.

(** [paragraph.text.replace('\xa0', ' ').lower()] *)
Definition normalised (paragraph : string) : string :=
  str_lower (replace_nbsp paragraph).

Definition semester_in (indexes : list string) (index : Z) : bool :=
  match indexes !! Z.to_nat index with
  | Some text => contains "семестр" text
  | None => false
  end.

Definition get_semester_index (soup : Tag) : list Z :=
  let indexes :=
    map (fun paragraph => normalised paragraph) (find_all_p soup) in
  List.filter (semester_in indexes) (range (length indexes)).

Definition get_schedule_from_first_semester (soup : Tag) : result (list string) :=
  let indexes := get_semester_index soup in
  if (length indexes =? 2)%nat then
    do links <- get_files_url soup;
    do last <- getitem indexes (-1);
    do first <- getitem indexes 0;
    Ok (slice_to links (last - first - 1))
  else Ok [].

Definition get_schedule_from_second_semester (soup : Tag) : result (list string) :=
  let indexes := get_semester_index soup in
  if (length indexes =? 2)%nat then
    do links <- get_files_url soup;
    do last <- getitem indexes (-1);
    Ok (slice_from links (last - 1))
  else if (length indexes =? 1)%nat then
    do links <- get_files_url soup;
    do first <- getitem indexes 0;
    Ok (slice_from links (first + 1))
  else Ok [].

Definition check_response (response : Z) : bool :=
  if response =? 200 then true else false.

Definition get_base_block (url : string) (headers : list (string * string))
  : IO (option (list Tag)) :=
  io html <- (io _ <- emit (Get url headers); io_ret (requests_get url headers));
  if negb (check_response (status_code html)) then io_ret None
  else match su_column_content html with
       | None => lift (Raise AttributeError)
       | Some column => io_ret (Some column)
       end.

(** The body of [for tag in base] in [main]. *)
Definition main_loop_body (tag : Tag) : IO unit :=
  io na <- lift
    (if get_current_semester =? 1 then
       do name <- get_institute_name tag;
       do links <- get_schedule_from_first_semester tag;
       Ok (name, map (fun link => BASE_URL +:+ link) links)
     else
       do name <- get_institute_name tag;
       do links <- get_schedule_from_second_semester tag;
       Ok (name, map (fun link => BASE_URL +:+ link) links));
  let name := fst na in
  let a := snd na in
  match a with
  | [] => io_ret tt
  | _ :: _ =>
      for_each
        (fun ii =>
           let path := transliteration_to_en_from_ru name in
           emit (SaveFile path (str_of_nat (fst ii)) (snd ii) (get_extension (snd ii))))
        (enumerate a)
  end.

(** [main] returns None on both of its paths; the model returns [tt]. *)
Definition main : IO unit :=
  io base <- get_base_block URL HEADERS;
  match base with
  | None => io_ret tt
  | Some base =>
      io _ <- emit (MakeDirectory "General");
      for_each main_loop_body base
  end.

End Parser.

(** ** [src/db.py]: the INSERT request *)

Module Db.

(** The line feed of ['\n']. *)
Definition LF : string := String "010" EmptyString.

Section Requests.
(** The values of the keyword arguments and their [format], as the
    f-string applies it.  The mapping is kept as the list of its items in
    insertion order, which is the order [kwargs.items()] yields. *)
Context {value : Type} (format : value -> string).

Definition insert_step (acc : string * string) (item : string * value)
  : string * string :=
  let request := fst acc in
  let temp := snd acc in
  let param := fst item in
  let value := snd item in
  (request +:+ param +:+ ", ", temp +:+ "'" +:+ format value +:+ "', ").

Definition insert_datas_to_db (name : string) (kwargs : list (string * value))
  : string :=
  let request := "INSERT INTO " +:+ name +:+ " (" in
  let temp := "" in
  let acc := fold_left insert_step kwargs (request, temp) in
  let request := fst acc in
  let temp := snd acc in
  let request := str_slice_to request (-2) +:+ ")" +:+ LF +:+ "VALUES (" +:+ temp in
  let request := str_slice_to request (-2) +:+ ");" in
  request.

Definition create_table_step (request : string) (item : string * value) : string :=
  let param := fst item in
  let type := snd item in
  request +:+ "," +:+ LF +:+ param +:+ " " +:+ format type.

Definition create_table_request (name : string) (kwargs : list (string * value))
  : string :=
  let request :=
    "CREATE TABLE IF NOT EXISTS " +:+ name +:+ "(" +:+ LF
    +:+ "ID INTEGER PRIMARY KEY AUTOINCREMENT" in
  let request := fold_left create_table_step kwargs request in
  let request := request +:+ ");" in
  request.

(** The definition of one column, as [create_table_request] writes it. *)
Definition column_definition (item : string * value) : string :=
  fst item +:+ " " +:+ format (snd item).

End Requests.

Definition return_all_from_db (name : string) : string :=
  "SELECT * FROM " +:+ name +:+ ";".

(** The items of [l], each followed by [sep]. *)
Definition with_trailing (sep : string) (l : list string) : string :=
  fold_right (fun x acc => x +:+ sep +:+ acc) "" l.

(** A value between single quotes, as the VALUES list shows it. *)
Definition quoted {value : Type} (format : value -> string) (v : value) : string :=
  "'" +:+ format v +:+ "'".

(** Values as [main] of [db.py] passes them: strings and integers. *)
Inductive pyval : Set :=
| VStr (s : string)
| VInt (z : Z).

Definition format_pyval (v : pyval) : string :=
  match v with
  | VStr s => s
  | VInt z => NilEmpty.string_of_int (Z.to_int z)
  end.

End Db.

(** ** A concrete environment and concrete pages *)

Definition lower_byte (c : ascii) : ascii :=
  let n := nat_of_ascii c in
  if ((65 <=? n) && (n <=? 90))%nat then ascii_of_nat (n + 32) else c.

(** [str.lower] on text written with ASCII and the Cyrillic letters
    U+0400..U+042F, whose encodings are 208 128 .. 208 175. *)
Fixpoint lower_basic (s : string) : string :=
  match s with
  | EmptyString => EmptyString
  | String c rest =>
      match rest with
      | String d rest' =>
          let n := nat_of_ascii d in
          if negb (Ascii.eqb c "208") then String (lower_byte c) (lower_basic rest)
          else if ((128 <=? n) && (n <=? 143))%nat
               then String "209" (String (ascii_of_nat (n + 16)) (lower_basic rest'))
          else if ((144 <=? n) && (n <=? 159))%nat
               then String "208" (String (ascii_of_nat (n + 32)) (lower_basic rest'))
          else if ((160 <=? n) && (n <=? 175))%nat
               then String "209" (String (ascii_of_nat (n - 32)) (lower_basic rest'))
          else String c (lower_basic rest)
      | EmptyString => String (lower_byte c) EmptyString
      end
  end.

Definition sample_env (semester : Z) (response : Response) : Env := {|
  str_lower := lower_basic;
  get_current_semester := semester;
  transliteration_to_en_from_ru := fun name => name;
  requests_get := fun _ _ => response
|}.

Definition xls_links : list Anchor :=
  [ {| href := "/a.xls" |}; {| href := "/b.xlsx" |}; {| href := "/c.XLS" |};
    {| href := "/d.xls" |}; {| href := "/e.xlsx" |} ].

(** Markers at paragraphs 1 and 3, five spreadsheet links. *)
Definition two_markers : Tag := {|
  find_h3 := Some "Институт А";
  find_all_p := ["Расписание занятий"; "1 СЕМЕСТР"; "очная форма"; "2 семестр"];
  find_su_clearfix := Some xls_links
|}.

(** Markers at paragraphs 0 and 2. *)
Definition two_markers_from_0 : Tag := {|
  find_h3 := Some "Институт Б";
  find_all_p := ["1 семестр"; "очная форма"; "2 семестр"];
  find_su_clearfix := Some xls_links
|}.

(** One marker, at paragraph 0; one link that is not a spreadsheet. *)
Definition one_marker : Tag := {|
  find_h3 := Some "Институт В";
  find_all_p := ["2" +:+ NBSP +:+ "семестр"];
  find_su_clearfix :=
    Some [ {| href := "/a.xls" |}; {| href := "/readme" |}; {| href := "/b.xlsx" |};
           {| href := "/plan.pdf" |} ]
|}.

Definition no_marker : Tag := {|
  find_h3 := Some "Институт Г";
  find_all_p := ["Расписание будет позже"];
  find_su_clearfix :=
    Some [ {| href := "/a.xls" |}; {| href := "/b.xls" |}; {| href := "/c.xls" |} ]
|}.

(** Markers at paragraphs 0, 1 and 3. *)
Definition three_markers : Tag := {|
  find_h3 := Some "Институт Д";
  find_all_p := ["1 семестр"; "семестр"; "очная форма"; "2 семестр"];
  find_su_clearfix := Some [ {| href := "/a.xls" |}; {| href := "/b.xls" |} ]
|}.

(** Two markers and no [div.su-clearfix]. *)
Definition no_container : Tag := {|
  find_h3 := Some "Институт Е";
  find_all_p := ["1 семестр"; "очная форма"; "2 семестр"];
  find_su_clearfix := None
|}.

(** Markers at paragraphs 0 and 2, a single link. *)
Definition three_paragraphs_one_link : Tag := {|
  find_h3 := Some "Институт Ж";
  find_all_p := ["1 семестр"; "очная форма"; "2 семестр"];
  find_su_clearfix := Some [ {| href := "/only.xls" |} ]
|}.


Definition page (status : Z) (blocks : list Tag) : Response :=
  {| status_code := status; su_column_content := Some blocks |}.

Definition env_semester1 : Env :=
  sample_env 1 (page 200 [two_markers_from_0; no_container; one_marker]).

Definition env_semester2 : Env :=
  sample_env 2 (page 200 [one_marker; no_marker; two_markers]).

Definition env_404 : Env :=
  sample_env 2 (page 404 [one_marker; two_markers]).

(** ** Statements of the specification, and tests the proofs refer to *)

Definition share_no_link (s1 s2 : list string) : Prop :=
  forall x, In x s1 -> In x s2 -> False.

Section Statements.
Context {env : Env}.

(** Section 3: the two outputs are disjoint, their concatenation is a
    subsequence of the link sequence, and a link is missing from both only
    when there is exactly one marker and the link stands at or before it. *)
Definition spec_invariant (soup : Tag) : Prop :=
  forall L s1 s2,
    get_files_url soup = Ok L ->
    get_schedule_from_first_semester soup = Ok s1 ->
    get_schedule_from_second_semester soup = Ok s2 ->
    share_no_link s1 s2 /\
    sublist (s1 ++ s2) L /\
    forall (i : nat) x, L !! i = Some x ->
      In x (s1 ++ s2) \/
      exists m, get_semester_index soup = [m] /\ Z.of_nat i <= m.

(** Section 4.3, more than two markers: the two-marker rule is applied to
    the first and the last index. *)
Definition spec_many_markers_rule (soup : Tag) : Prop :=
  let indexes := get_semester_index soup in
  (2 < length indexes)%nat ->
  forall L first last,
    get_files_url soup = Ok L ->
    getitem indexes 0 = Ok first ->
    getitem indexes (-1) = Ok last ->
    get_schedule_from_first_semester soup = Ok (slice_to L (last - first - 1)) /\
    get_schedule_from_second_semester soup = Ok (slice_from L (last - first - 1)).

(** Sections 4.4 and 7: a block that fails for want of its link container
    does not abort the run, and what the other blocks save is saved. *)
Definition spec_partial_failure : Prop :=
  forall blocks,
    status_code (requests_get URL HEADERS) = 200 ->
    su_column_content (requests_get URL HEADERS) = Some blocks ->
    (forall tag, In tag blocks ->
       fst (main_loop_body tag) = Ok tt \/ find_su_clearfix tag = None) ->
    fst main = Ok tt /\
    forall tag, In tag blocks -> fst (main_loop_body tag) = Ok tt ->
      forall e, In e (snd (main_loop_body tag)) -> In e (snd main).

(** Section 8, the extension filter: the text after the final '.' of the
    address, lower-cased, is [xls] or [xlsx]. *)
Definition spreadsheet_url (url : string) : Prop :=
  exists pre suffix,
    url = pre +:+ String "." suffix /\
    ~ occurs "." suffix /\
    (str_lower suffix = "xls" \/ str_lower suffix = "xlsx").

(** The test of the list comprehension in [get_files_url]. *)
Definition keeps (link : string) : bool :=
  opt_eqb (get_extension link) (Some "xls")
  || opt_eqb (get_extension link) (Some "xlsx").

(** Whether the loop body of [main] asks [tag] for its links: the first
    semester does with two markers, the second with one or two. *)
Definition extracts_links (tag : Tag) : bool :=
  let n := length (get_semester_index tag) in
  if get_current_semester =? 1 then (n =? 2)%nat
  else ((n =? 2)%nat || (n =? 1)%nat).

End Statements.

Section RunStatements.
Context {env : Env}.

(** The schedule the loop body of [main] asks a block for. *)
Definition selected_schedule (tag : Tag) : result (list string) :=
  if get_current_semester =? 1 then get_schedule_from_first_semester tag
  else get_schedule_from_second_semester tag.

(** The call of [system.save_file] for the link at position [index] of a
    block called [name]. *)
Definition save_call (name : string) (index : nat) (link : string) : event :=
  SaveFile (transliteration_to_en_from_ru name) (str_of_nat index)
           (BASE_URL +:+ link) (get_extension (BASE_URL +:+ link)).

End RunStatements.

Definition is_save (e : event) : Prop :=
  match e with
  | SaveFile _ _ _ _ => True
  | _ => False
  end.

(** ** Facts about the built-in operations *)

Section SliceFacts.
Context {A : Type}.
Implicit Types (l : list A) (k : Z).

Lemma clamp_nonneg (n : nat) k :
  0 <= k -> clamp n k = Nat.min (Z.to_nat k) n.
Proof.
  intros Hk. unfold clamp.
  destruct (Z.ltb_spec k 0) as [Hlt | _]; [lia |].
  rewrite Z2Nat.inj_min, Nat2Z.id. reflexivity.
Qed.

Lemma slice_to_nonneg l k : 0 <= k -> slice_to l k = take (Z.to_nat k) l.
Proof.
  intros Hk. unfold slice_to. rewrite clamp_nonneg by assumption.
  destruct (Nat.le_gt_cases (Z.to_nat k) (length l)) as [Hle | Hgt].
  - rewrite Nat.min_l by assumption. reflexivity.
  - rewrite Nat.min_r by lia. rewrite !take_ge by lia. reflexivity.
Qed.

Lemma slice_from_nonneg l k : 0 <= k -> slice_from l k = drop (Z.to_nat k) l.
Proof.
  intros Hk. unfold slice_from. rewrite clamp_nonneg by assumption.
  destruct (Nat.le_gt_cases (Z.to_nat k) (length l)) as [Hle | Hgt].
  - rewrite Nat.min_l by assumption. reflexivity.
  - rewrite Nat.min_r by lia. rewrite !drop_ge by lia. reflexivity.
Qed.

(** Two slices cut at the same bound make up the sequence. *)
Lemma slice_to_from l k : slice_to l k ++ slice_from l k = l.
Proof. apply take_drop. Qed.

(** A prefix slice and a later suffix slice leave out the part between. *)
Lemma slice_to_mid_from l (a b : Z) :
  0 <= a <= b ->
  slice_to l a ++ drop (Z.to_nat a) (take (Z.to_nat b) l) ++ slice_from l b = l.
Proof.
  intros [Ha Hab].
  rewrite slice_to_nonneg, slice_from_nonneg by lia.
  rewrite drop_take_drop by lia. apply take_drop.
Qed.

Lemma slice_from_lookup l k (i : nat) :
  0 <= k -> slice_from l k !! i = l !! (Z.to_nat k + i)%nat.
Proof.
  intros Hk. rewrite slice_from_nonneg by assumption. apply lookup_drop.
Qed.

End SliceFacts.

Section StringFacts.
Implicit Types (s t needle : string) (c : ascii).

Lemma prefix_spec needle s :
  String.prefix needle s = true <-> exists post, s = needle +:+ post.
Proof.
  revert s. induction needle as [| a needle IH]; intros s.
  - destruct s; simpl; split; eauto.
  - destruct s as [| b s]; simpl.
    + split; [discriminate | intros [post Hpost]; discriminate].
    + destruct (ascii_dec a b) as [-> | Hne].
      * rewrite IH. split; intros [post Hpost]; exists post.
        -- simpl. now rewrite Hpost.
        -- simpl in Hpost. now injection Hpost.
      * split; [discriminate |].
        intros [post Hpost]. simpl in Hpost. injection Hpost as Hab _.
        congruence.
Qed.

(** [needle in s] holds exactly when [needle] occurs somewhere in [s]. *)
Lemma contains_spec needle s :
  contains needle s = true <-> exists pre post, s = pre +:+ needle +:+ post.
Proof.
  induction s as [| a s IH].
  - cbn [contains]. rewrite orb_false_r, prefix_spec. split.
    + intros [post Hpost]. exists EmptyString, post. exact Hpost.
    + intros (pre & post & Hs). destruct pre; [eauto | discriminate].
  - cbn [contains]. rewrite orb_true_iff, IH, prefix_spec. split.
    + intros [[post Hpost] | (pre & post & Hs)].
      * exists EmptyString, post. exact Hpost.
      * exists (String a pre), post. simpl. now rewrite Hs.
    + intros (pre & post & Hs). destruct pre as [| b pre].
      * left. exists post. exact Hs.
      * right. exists pre, post. simpl in Hs. now injection Hs.
Qed.

Lemma after_last_None c s : after_last c s = None <-> ~ occurs c s.
Proof.
  induction s as [| a s IH]; simpl.
  - tauto.
  - destruct (after_last c s) as [t |] eqn:Hs.
    + split; [discriminate |]. intros Hn.
      assert (Hx : Some t = None) by (apply IH; tauto). discriminate.
    + destruct (Ascii.eqb_spec a c) as [-> | Hne].
      * split; [discriminate | tauto].
      * split; [| reflexivity]. intros _ [Hac | Hocc]; [congruence |].
        apply IH in Hocc; [exact Hocc | reflexivity].
Qed.

(** [after_last c s] is the part of [s] behind the final [c]. *)
Lemma after_last_Some c s t :
  after_last c s = Some t <->
  exists pre, s = pre +:+ String c t /\ ~ occurs c t.
Proof.
  revert t. induction s as [| a s IH]; intros t; simpl.
  - split; [discriminate |]. intros (pre & Hs & _). destruct pre; discriminate.
  - destruct (after_last c s) as [u |] eqn:Hs.
    + split.
      * intros [= <-]. destruct (proj1 (IH u) eq_refl) as (pre & -> & Hn).
        exists (String a pre). split; [reflexivity | exact Hn].
      * intros (pre & Hpre & Hn). destruct pre as [| b pre]; simpl in Hpre.
        -- injection Hpre as -> ->.
           assert (Hnone : after_last c t = None) by now apply after_last_None.
           congruence.
        -- injection Hpre as -> Hs'. f_equal. symmetry.
           assert (Hu : Some u = Some t) by (apply IH; eauto).
           now injection Hu.
    + apply after_last_None in Hs.
      destruct (Ascii.eqb_spec a c) as [-> | Hne].
      * split.
        -- intros [= <-]. exists EmptyString. split; [reflexivity | exact Hs].
        -- intros (pre & Hpre & Hn). destruct pre as [| b pre]; simpl in Hpre.
           ++ now injection Hpre as ->.
           ++ injection Hpre as -> ->. exfalso. apply Hs.
              clear. induction pre; simpl; auto.
      * split; [discriminate |].
        intros (pre & Hpre & Hn). destruct pre as [| b pre]; simpl in Hpre.
        -- injection Hpre as Hac _. congruence.
        -- injection Hpre as -> ->. exfalso. apply Hs.
           clear. induction pre; simpl; auto.
Qed.

Lemma opt_eqb_Some (o : option string) s : opt_eqb o (Some s) = true <-> o = Some s.
Proof.
  destruct o as [x |]; simpl.
  - rewrite String.eqb_eq. split; congruence.
  - split; discriminate.
Qed.

End StringFacts.

(** ** The semester marker locator *)

Lemma filter_StronglySorted {A} (R : A -> A -> Prop) (f : A -> bool) (l : list A) :
  StronglySorted R l -> StronglySorted R (List.filter f l).
Proof.
  induction 1 as [| a l Hl IH Ha]; simpl; [constructor |].
  destruct (f a); [| exact IH].
  constructor; [exact IH |].
  rewrite List.Forall_forall in *. intros x Hx.
  apply filter_In in Hx. apply Ha, Hx.
Qed.

Lemma range_from_sorted (a n : nat) :
  StronglySorted Z.lt (map Z.of_nat (seq a n)).
Proof.
  revert a. induction n as [| n IH]; intros a; simpl; constructor.
  - apply IH.
  - rewrite List.Forall_forall. intros x Hx.
    apply in_map_iff in Hx as (j & <- & Hj). apply in_seq in Hj. lia.
Qed.

Lemma In_range (n : nat) (i : Z) : In i (range n) <-> 0 <= i < Z.of_nat n.
Proof.
  unfold range. rewrite in_map_iff. split.
  - intros (j & <- & Hj). apply in_seq in Hj. lia.
  - intros Hi. exists (Z.to_nat i). split; [lia |]. apply in_seq. lia.
Qed.

Section Locator.
Context {env : Env}.
Implicit Types (soup : Tag) (i : Z).

Lemma get_semester_index_In soup i :
  In i (get_semester_index soup) <->
  0 <= i /\
  exists text, find_all_p soup !! Z.to_nat i = Some text /\
               contains "семестр" (normalised text) = true.
Proof.
  unfold get_semester_index, semester_in, normalised.
  rewrite filter_In, In_range, length_map.
  change (map ?f ?l) with (f <$> l). rewrite list_lookup_fmap.
  destruct (find_all_p soup !! Z.to_nat i) as [text |] eqn:Hi; simpl.
  - apply lookup_lt_Some in Hi. split.
    + intros [Hr Hc]. split; [lia | eauto].
    + intros [Hr (t & [= <-] & Hc)]. split; [lia | exact Hc].
  - split.
    + intros [_ Hc]. discriminate.
    + intros [_ (t & Ht & _)]. discriminate.
Qed.

Lemma get_semester_index_sorted soup :
  StronglySorted Z.lt (get_semester_index soup).
Proof. apply filter_StronglySorted, range_from_sorted. Qed.

Lemma one_marker_nonneg soup (m : Z) : get_semester_index soup = [m] -> 0 <= m.
Proof.
  intros Hm. apply (get_semester_index_In soup m). rewrite Hm. now left.
Qed.

Lemma two_markers_ordered soup (f l : Z) :
  get_semester_index soup = [f; l] -> 0 <= f < l.
Proof.
  intros Hfl. split.
  - apply (get_semester_index_In soup f). rewrite Hfl. now left.
  - pose proof (get_semester_index_sorted soup) as Hs. rewrite Hfl in Hs.
    inversion Hs as [| ? ? _ Hall]; subst.
    now inversion Hall.
Qed.

End Locator.

Lemma replace_nbsp_nbsp (s : string) :
  replace_nbsp (NBSP +:+ s) = " " +:+ replace_nbsp s.
Proof. reflexivity. Qed.

Lemma replace_nbsp_other (c : ascii) (s : string) :
  c <> "194"%char -> replace_nbsp (String c s) = String c (replace_nbsp s).
Proof.
  intros Hc. destruct s as [| d s]; [reflexivity |].
  cbn [replace_nbsp]. destruct (Ascii.eqb_spec c "194"); [contradiction |].
  reflexivity.
Qed.

(** C6. For every fragment, [get_semester_index] returns exactly the 0-based
    positions of the paragraphs whose text, once the no-break spaces are
    replaced by spaces and the text is lower-cased, contains the word
    "семестр"; the positions come in document order, strictly ascending.
    The locator is a function of the fragment alone: it has no trace, so it
    fetches nothing and changes nothing. *)
Theorem get_semester_index_exact {env : Env} (soup : Tag) :
  (forall i : Z,
      In i (get_semester_index soup) <->
      0 <= i /\
      exists text, find_all_p soup !! Z.to_nat i = Some text /\
        exists pre post,
          str_lower (replace_nbsp text) = pre +:+ "семестр" +:+ post) /\
  StronglySorted Z.lt (get_semester_index soup).
Proof.
  split; [| apply get_semester_index_sorted].
  intros i. rewrite get_semester_index_In. unfold normalised.
  split; intros [Hi (text & Ht & Hc)]; (split; [exact Hi |]);
    exists text; (split; [exact Ht |]); now apply contains_spec.
Qed.

(** ** The segmentation *)

(** Closes a goal on the number of markers once the marker list [Hi] is
    known. *)
Ltac count_markers Hi := rewrite Hi; simpl; lia.

Section Segmentation.
Context {env : Env}.
Implicit Types (soup : Tag) (L : list string).

Lemma first_semester_two_markers soup (f l : Z) L :
  get_semester_index soup = [f; l] ->
  get_files_url soup = Ok L ->
  get_schedule_from_first_semester soup = Ok (slice_to L (l - f - 1)).
Proof.
  intros Hi HL. unfold get_schedule_from_first_semester.
  rewrite Hi, HL. reflexivity.
Qed.

(** The second semester starts at [l - 1], whatever the first index is. *)
Lemma second_semester_two_markers soup (f l : Z) L :
  get_semester_index soup = [f; l] ->
  get_files_url soup = Ok L ->
  get_schedule_from_second_semester soup = Ok (slice_from L (l - 1)).
Proof.
  intros Hi HL. unfold get_schedule_from_second_semester.
  rewrite Hi, HL. reflexivity.
Qed.

Lemma second_semester_one_marker soup (m : Z) L :
  get_semester_index soup = [m] ->
  get_files_url soup = Ok L ->
  get_schedule_from_second_semester soup = Ok (slice_from L (m + 1)).
Proof.
  intros Hi HL. unfold get_schedule_from_second_semester.
  rewrite Hi, HL. reflexivity.
Qed.

Lemma first_semester_not_two soup :
  length (get_semester_index soup) <> 2%nat ->
  get_schedule_from_first_semester soup = Ok [].
Proof.
  intros Hn. unfold get_schedule_from_first_semester.
  destruct (Nat.eqb_spec (length (get_semester_index soup)) 2); [lia | reflexivity].
Qed.

Lemma second_semester_not_one_or_two soup :
  length (get_semester_index soup) <> 2%nat ->
  length (get_semester_index soup) <> 1%nat ->
  get_schedule_from_second_semester soup = Ok [].
Proof.
  intros H2 H1. unfold get_schedule_from_second_semester.
  destruct (Nat.eqb_spec (length (get_semester_index soup)) 2); [lia |].
  destruct (Nat.eqb_spec (length (get_semester_index soup)) 1); [lia | reflexivity].
Qed.

(** When the first marker is paragraph 0 the two outputs make up the links. *)
Lemma two_markers_from_0_cover soup (l : Z) L :
  get_semester_index soup = [0; l] ->
  get_files_url soup = Ok L ->
  exists s1 s2,
    get_schedule_from_first_semester soup = Ok s1 /\
    get_schedule_from_second_semester soup = Ok s2 /\
    s1 ++ s2 = L.
Proof.
  intros Hi HL. exists (slice_to L (l - 1)), (slice_from L (l - 1)).
  rewrite (first_semester_two_markers soup 0 l L Hi HL).
  rewrite (second_semester_two_markers soup 0 l L Hi HL).
  replace (l - 0 - 1) with (l - 1) by lia.
  repeat split. apply slice_to_from.
Qed.

(** With a first marker after paragraph 0 and enough links, the two outputs
    are shorter than the links together: some link reaches neither. *)
Lemma two_markers_late_first_lose_links soup (f l : Z) L (s1 s2 : list string) :
  get_semester_index soup = [f; l] ->
  get_files_url soup = Ok L ->
  get_schedule_from_first_semester soup = Ok s1 ->
  get_schedule_from_second_semester soup = Ok s2 ->
  0 < f ->
  l - f - 1 < Z.of_nat (length L) ->
  (length (s1 ++ s2) < length L)%nat.
Proof.
  intros Hi HL H1 H2 Hf Hgap.
  pose proof (two_markers_ordered soup f l Hi) as Hfl.
  rewrite (first_semester_two_markers soup f l L Hi HL) in H1.
  rewrite (second_semester_two_markers soup f l L Hi HL) in H2.
  injection H1 as <-. injection H2 as <-.
  rewrite slice_to_nonneg, slice_from_nonneg by lia.
  rewrite length_app, length_take, length_drop. lia.
Qed.

End Segmentation.

(** C1. The claim does not hold of the code: with two markers [f < l] the
    first semester is cut at [l - f - 1] and the second at [l - 1], so for
    [f > 0] the links in between reach neither semester.  Here the markers
    are paragraphs 1 and 3 and there are five links: the first semester is
    [L[:1]], the second is [L[2:]] and not [L[1:]], and the link at position
    1 is lost although [3 - 1 - 1 <= len(L)]. *)
Theorem two_markers_second_semester_starts_late :
  let L := ["/a.xls"; "/b.xlsx"; "/c.XLS"; "/d.xls"; "/e.xlsx"] in
  get_semester_index (env := env_semester1) two_markers = [1; 3] /\
  get_files_url (env := env_semester1) two_markers = Ok L /\
  get_schedule_from_first_semester (env := env_semester1) two_markers
    = Ok (slice_to L (3 - 1 - 1)) /\
  get_schedule_from_second_semester (env := env_semester1) two_markers
    = Ok ["/c.XLS"; "/d.xls"; "/e.xlsx"] /\
  get_schedule_from_second_semester (env := env_semester1) two_markers
    <> Ok (slice_from L (3 - 1 - 1)) /\
  slice_to L (3 - 1 - 1) ++ ["/c.XLS"; "/d.xls"; "/e.xlsx"] <> L.
Proof.
  cbv zeta. repeat split; try reflexivity; vm_compute; discriminate.
Qed.

(** C2 as worded fails where there is no marker: the three links of
    [no_marker] are in neither output. *)
Lemma spec_invariant_fails_without_marker :
  ~ spec_invariant (env := env_semester1) no_marker.
Proof.
  intros Hinv.
  destruct (Hinv ["/a.xls"; "/b.xls"; "/c.xls"] [] [] eq_refl eq_refl eq_refl)
    as (_ & _ & Hkept).
  destruct (Hkept 0%nat "/a.xls" eq_refl) as [[] | (m & Hm & _)].
  vm_compute in Hm. discriminate.
Qed.

(** C2, amended. Whenever the links [L] of a fragment are extracted and both
    outputs are returned, [L] is the first output, then a middle part, then
    the second output: the outputs take separate ranges of positions (so
    they share no link when no link occurs twice in [L]) and their
    concatenation is a subsequence of [L].  The middle part is empty with
    two markers of which the first is paragraph 0; with one marker [m] the
    first output is empty and the middle part is [L[:m+1]]; with no marker
    or more than two, both outputs are empty. *)
Theorem segmentation_splits_links {env : Env} (soup : Tag) (L s1 s2 : list string) :
  get_files_url soup = Ok L ->
  get_schedule_from_first_semester soup = Ok s1 ->
  get_schedule_from_second_semester soup = Ok s2 ->
  exists mid,
    L = s1 ++ mid ++ s2 /\
    sublist (s1 ++ s2) L /\
    (NoDup L -> share_no_link s1 s2) /\
    (forall l, get_semester_index soup = [0; l] -> mid = []) /\
    (forall m, get_semester_index soup = [m] ->
               s1 = [] /\ mid = slice_to L (m + 1)) /\
    (length (get_semester_index soup) <> 1%nat ->
     length (get_semester_index soup) <> 2%nat -> s1 = [] /\ s2 = []).
Proof.
  intros HL H1 H2.
  assert (Hmid : exists mid,
    L = s1 ++ mid ++ s2 /\
    (forall l, get_semester_index soup = [0; l] -> mid = []) /\
    (forall m, get_semester_index soup = [m] ->
               s1 = [] /\ mid = slice_to L (m + 1)) /\
    (length (get_semester_index soup) <> 1%nat ->
     length (get_semester_index soup) <> 2%nat -> s1 = [] /\ s2 = [])).
  { destruct (get_semester_index soup) as [| f [| l [| x rest]]] eqn:Hi.
    - rewrite first_semester_not_two in H1 by count_markers Hi.
      rewrite second_semester_not_one_or_two in H2 by count_markers Hi.
      injection H1 as <-. injection H2 as <-.
      exists L. simpl. rewrite List.app_nil_r. repeat split; discriminate.
    - rewrite first_semester_not_two in H1 by count_markers Hi.
      rewrite (second_semester_one_marker soup f L Hi HL) in H2.
      injection H1 as <-. injection H2 as <-.
      exists (slice_to L (f + 1)). split; [| split; [| split]].
      + symmetry. apply slice_to_from.
      + discriminate.
      + intros m [= <-]. split; reflexivity.
      + simpl. lia.
    - rewrite (first_semester_two_markers soup f l L Hi HL) in H1.
      rewrite (second_semester_two_markers soup f l L Hi HL) in H2.
      injection H1 as <-. injection H2 as <-.
      pose proof (two_markers_ordered soup f l Hi) as Hfl.
      exists (drop (Z.to_nat (l - f - 1)) (take (Z.to_nat (l - 1)) L)).
      split; [| split; [| split]].
      + symmetry. apply slice_to_mid_from. lia.
      + intros l' [= -> <-]. replace (l - 0 - 1) with (l - 1) by lia.
        apply drop_ge. rewrite length_take. lia.
      + discriminate.
      + simpl. lia.
    - rewrite first_semester_not_two in H1 by count_markers Hi.
      rewrite second_semester_not_one_or_two in H2 by count_markers Hi.
      injection H1 as <-. injection H2 as <-.
      exists L. simpl. rewrite List.app_nil_r. repeat split; discriminate. }
  destruct Hmid as (mid & HLmid & Hrest). exists mid.
  split; [exact HLmid |]. split; [| split; [| exact Hrest]].
  - rewrite HLmid. apply sublist_app; [reflexivity |].
    apply sublist_inserts_l. reflexivity.
  - rewrite HLmid. intros Hnd x Hx1 Hx2.
    apply NoDup_app in Hnd as (_ & Hsep & _).
    apply (Hsep x); [now apply list_elem_of_In |].
    apply list_elem_of_In, in_or_app. now right.
Qed.

Lemma segmentation_splits_links_witness :
  exists mid,
    ["/a.xls"; "/b.xlsx"; "/c.XLS"; "/d.xls"; "/e.xlsx"]
      = ["/a.xls"] ++ mid ++ ["/b.xlsx"; "/c.XLS"; "/d.xls"; "/e.xlsx"] /\
    mid = [].
Proof.
  destruct (segmentation_splits_links (env := env_semester1) two_markers_from_0
              ["/a.xls"; "/b.xlsx"; "/c.XLS"; "/d.xls"; "/e.xlsx"]
              ["/a.xls"] ["/b.xlsx"; "/c.XLS"; "/d.xls"; "/e.xlsx"]
              eq_refl eq_refl eq_refl)
    as (mid & Hsplit & _ & _ & Hzero & _).
  exists mid. split; [exact Hsplit | exact (Hzero 2 eq_refl)].
Defined.

(** C3 as worded fails: [three_markers] has markers at paragraphs 0, 1 and 3,
    and neither function returns the slice at [3 - 0 - 1]. *)
Lemma spec_many_markers_rule_fails :
  ~ spec_many_markers_rule (env := env_semester1) three_markers.
Proof.
  intros Hrule.
  assert (Hlen : (2 < length (get_semester_index (env := env_semester1) three_markers))%nat)
    by (vm_compute; lia).
  destruct (Hrule Hlen ["/a.xls"; "/b.xls"] 0 3 eq_refl eq_refl eq_refl) as [Hfirst _].
  vm_compute in Hfirst. discriminate.
Qed.

(** C3, amended. For every fragment whose marker index list has more than two
    entries, both functions return the empty list: the two-marker rule is
    applied only to a list of exactly two entries. *)
Theorem more_than_two_markers_no_links {env : Env} (soup : Tag) :
  (2 < length (get_semester_index soup))%nat ->
  get_schedule_from_first_semester soup = Ok [] /\
  get_schedule_from_second_semester soup = Ok [].
Proof.
  intros Hlen. split.
  - apply first_semester_not_two. lia.
  - apply second_semester_not_one_or_two; lia.
Qed.

Lemma more_than_two_markers_no_links_witness :
  get_schedule_from_first_semester (env := env_semester1) three_markers = Ok [] /\
  get_schedule_from_second_semester (env := env_semester1) three_markers = Ok [].
Proof.
  apply (more_than_two_markers_no_links (env := env_semester1) three_markers).
  vm_compute. lia.
Defined.

(** C4. For every fragment with exactly one marker [m] and links [L], the
    first semester gets no link and the second gets [L[m+1:]], which holds
    exactly the links at the positions strictly greater than [m]. *)
Theorem one_marker_segmentation {env : Env} (soup : Tag) (m : Z) (L : list string) :
  get_semester_index soup = [m] ->
  get_files_url soup = Ok L ->
  get_schedule_from_first_semester soup = Ok [] /\
  get_schedule_from_second_semester soup = Ok (slice_from L (m + 1)) /\
  (forall j : nat, slice_from L (m + 1) !! j = L !! (Z.to_nat m + 1 + j)%nat) /\
  (forall x, In x (slice_from L (m + 1)) <->
             exists j : nat, m < Z.of_nat j /\ L !! j = Some x).
Proof.
  intros Hi HL. pose proof (one_marker_nonneg soup m Hi) as Hm.
  assert (Hlookup : forall j : nat,
             slice_from L (m + 1) !! j = L !! (Z.to_nat m + 1 + j)%nat).
  { intros j. rewrite slice_from_lookup by lia. f_equal. lia. }
  split; [| split; [| split]].
  - apply first_semester_not_two. count_markers Hi.
  - exact (second_semester_one_marker soup m L Hi HL).
  - exact Hlookup.
  - intros x. rewrite <- list_elem_of_In, list_elem_of_lookup. split.
    + intros [j Hj]. rewrite Hlookup in Hj.
      exists (Z.to_nat m + 1 + j)%nat. split; [lia | exact Hj].
    + intros (j & Hmj & Hj). exists (j - (Z.to_nat m + 1))%nat.
      rewrite Hlookup. rewrite <- Hj. f_equal. lia.
Qed.

Lemma one_marker_segmentation_witness :
  get_schedule_from_first_semester (env := env_semester2) one_marker = Ok [] /\
  get_schedule_from_second_semester (env := env_semester2) one_marker
    = Ok (slice_from ["/a.xls"; "/b.xlsx"] (0 + 1)).
Proof.
  destruct (one_marker_segmentation (env := env_semester2) one_marker 0
              ["/a.xls"; "/b.xlsx"] eq_refl eq_refl) as (H1 & H2 & _).
  split; [exact H1 | exact H2].
Defined.

(** C5. For every fragment without a marker both functions return the empty
    list, whatever links the fragment holds, and also when it has no link
    container at all: the links are not looked at. *)
Theorem no_marker_segmentation {env : Env} (soup : Tag) :
  get_semester_index soup = [] ->
  get_schedule_from_first_semester soup = Ok [] /\
  get_schedule_from_second_semester soup = Ok [].
Proof.
  intros Hi. split.
  - apply first_semester_not_two. count_markers Hi.
  - apply second_semester_not_one_or_two; count_markers Hi.
Qed.

Lemma no_marker_segmentation_witness :
  get_schedule_from_first_semester (env := env_semester1) no_marker = Ok [] /\
  get_schedule_from_second_semester (env := env_semester1) no_marker = Ok [].
Proof.
  apply (no_marker_segmentation (env := env_semester1) no_marker). reflexivity.
Defined.

(** ** The link extractor *)

Section Extractor.
Context {env : Env}.

Lemma get_extension_None (url : string) :
  get_extension url = None <-> ~ occurs "." url.
Proof.
  unfold get_extension. rewrite <- after_last_None.
  destruct (after_last "." url); split; congruence.
Qed.

Lemma get_extension_Some (url e : string) :
  get_extension url = Some e <->
  exists pre suffix,
    url = pre +:+ String "." suffix /\ ~ occurs "." suffix /\ e = str_lower suffix.
Proof.
  unfold get_extension. split.
  - destruct (after_last "." url) as [suffix |] eqn:Hs; [| discriminate].
    intros [= <-]. apply after_last_Some in Hs as (pre & Hpre & Hn).
    exists pre, suffix. auto.
  - intros (pre & suffix & Hurl & Hn & ->).
    assert (Hs : after_last "." url = Some suffix)
      by (apply after_last_Some; eauto).
    rewrite Hs. reflexivity.
Qed.

Lemma keeps_spec (link : string) : keeps link = true <-> spreadsheet_url link.
Proof.
  unfold keeps, spreadsheet_url.
  rewrite orb_true_iff, !opt_eqb_Some, !get_extension_Some. split.
  - intros [(pre & suffix & Hu & Hn & He) | (pre & suffix & Hu & Hn & He)];
      exists pre, suffix; auto.
  - intros (pre & suffix & Hu & Hn & [He | He]); [left | right];
      exists pre, suffix; auto.
Qed.

Lemma filter_sublist {A} (f : A -> bool) (l : list A) :
  sublist (List.filter f l) l.
Proof.
  induction l as [| a l IH]; simpl; [constructor |].
  destruct (f a); now constructor.
Qed.

End Extractor.

(** C7. Where the link container is present, [get_files_url] returns the
    addresses of its anchors filtered by one test, and an address passes the
    test if and only if the text after its final '.', lower-cased, is [xls]
    or [xlsx]; an address without '.' has no extension, does not pass and
    raises nothing.  The result is the filtered list, so the links that stay
    keep their order. *)
Theorem get_files_url_extension_filter {env : Env} (soup : Tag) (anchors : list Anchor) :
  find_su_clearfix soup = Some anchors ->
  exists keep : string -> bool,
    (forall url, keep url = true <-> spreadsheet_url url) /\
    (forall url, ~ occurs "." url -> get_extension url = None /\ keep url = false) /\
    get_files_url soup = Ok (List.filter keep (map href anchors)) /\
    sublist (List.filter keep (map href anchors)) (map href anchors).
Proof.
  intros Hc. exists keeps. split; [| split; [| split]].
  - apply keeps_spec.
  - intros url Hn. apply get_extension_None in Hn.
    unfold keeps. rewrite Hn. split; reflexivity.
  - unfold get_files_url. rewrite Hc. reflexivity.
  - apply filter_sublist.
Qed.

Lemma get_files_url_extension_filter_witness :
  exists keep : string -> bool,
    keep "/c.XLS" = true /\ keep "/readme" = false /\ keep "/plan.pdf" = false /\
    get_files_url (env := env_semester2) one_marker
      = Ok (List.filter keep ["/a.xls"; "/readme"; "/b.xlsx"; "/plan.pdf"]).
Proof.
  destruct (get_files_url_extension_filter (env := env_semester2) one_marker _ eq_refl)
    as (keep & Hkeep & Hnodot & Hurl & _).
  exists keep. split; [| split; [| split]].
  - apply Hkeep. exists "/c", "XLS". split; [reflexivity |].
    split; [| left; reflexivity].
    simpl. intros [Hc | [Hc | [Hc | []]]]; discriminate.
  - apply Hnodot. simpl. intros Hocc.
    repeat (destruct Hocc as [Hocc | Hocc]; [discriminate |]). exact Hocc.
  - destruct (keep "/plan.pdf") eqn:Hpdf; [| reflexivity].
    apply Hkeep in Hpdf as (pre & suffix & Hu & Hn & Hx).
    assert (Hs : after_last "." "/plan.pdf" = Some suffix)
      by (apply after_last_Some; eauto).
    vm_compute in Hs. injection Hs as <-.
    destruct Hx as [Hx | Hx]; vm_compute in Hx; discriminate.
  - exact Hurl.
Defined.

(** ** The run: [get_base_block] and [main] *)

Section Loop.
Context {A : Type} (body : A -> IO unit).

Lemma for_each_cons_ok (x : A) (l : list A) :
  fst (body x) = Ok tt ->
  for_each body (x :: l)
  = (fst (for_each body l), snd (body x) ++ snd (for_each body l)).
Proof. intros Hx. cbn [for_each]. unfold io_bind. rewrite Hx. reflexivity. Qed.

Lemma for_each_cons_raise (x : A) (l : list A) (e : exn) :
  fst (body x) = Raise e ->
  for_each body (x :: l) = (Raise e, snd (body x)).
Proof. intros Hx. cbn [for_each]. unfold io_bind. rewrite Hx. reflexivity. Qed.


(** A loop ends at its first turn that raises: the turns after it do not
    take place. *)
Lemma for_each_stops_at_raise (pre post : list A) (bad : A) (e : exn) :
  (forall x, In x pre -> fst (body x) = Ok tt) ->
  fst (body bad) = Raise e ->
  for_each body (pre ++ bad :: post) = (Raise e, traces body pre ++ snd (body bad)).
Proof.
  intros Hok Hbad. induction pre as [| x pre IH]; simpl app.
  - rewrite (for_each_cons_raise _ _ e Hbad). reflexivity.
  - rewrite for_each_cons_ok by (apply Hok; now left).
    rewrite IH by (intros y Hy; apply Hok; now right).
    unfold traces. simpl. now rewrite <- List.app_assoc.
Qed.

End Loop.

Section Run.
Context {env : Env}.

Lemma check_response_200 (response : Z) :
  check_response response = true <-> response = 200.
Proof.
  unfold check_response. destruct (Z.eqb_spec response 200); split; congruence.
Qed.

Lemma get_base_block_refused (url : string) (headers : list (string * string)) :
  status_code (requests_get url headers) <> 200 ->
  get_base_block url headers = (Ok None, [Get url headers]).
Proof.
  intros Hs. unfold get_base_block, check_response, io_bind. simpl.
  destruct (Z.eqb_spec (status_code (requests_get url headers)) 200) as [| _];
    [contradiction |].
  reflexivity.
Qed.

Lemma get_base_block_accepted (url : string) (headers : list (string * string))
      (column : list Tag) :
  status_code (requests_get url headers) = 200 ->
  su_column_content (requests_get url headers) = Some column ->
  get_base_block url headers = (Ok (Some column), [Get url headers]).
Proof.
  intros Hs Hc. unfold get_base_block, check_response, io_bind. simpl.
  rewrite Hs, Hc. reflexivity.
Qed.

Lemma main_refused :
  status_code (requests_get URL HEADERS) <> 200 ->
  main = (Ok tt, [Get URL HEADERS]).
Proof.
  intros Hs. unfold main. rewrite (get_base_block_refused _ _ Hs). reflexivity.
Qed.

Lemma main_accepted (column : list Tag) :
  status_code (requests_get URL HEADERS) = 200 ->
  su_column_content (requests_get URL HEADERS) = Some column ->
  main = (fst (for_each main_loop_body column),
          Get URL HEADERS :: MakeDirectory "General"
            :: snd (for_each main_loop_body column)).
Proof.
  intros Hs Hc. unfold main. rewrite (get_base_block_accepted _ _ _ Hs Hc).
  reflexivity.
Qed.

(** A block without link container whose links are asked for ends the loop
    body with the AttributeError of [None.find_all], before any file is
    saved; a missing heading raises the same error even earlier. *)
Lemma main_loop_body_no_container (tag : Tag) :
  find_su_clearfix tag = None ->
  extracts_links tag = true ->
  main_loop_body tag = (Raise AttributeError, []).
Proof.
  intros Hc Hx. unfold main_loop_body, extracts_links in *.
  unfold get_institute_name, get_schedule_from_first_semester,
    get_schedule_from_second_semester, get_files_url.
  rewrite Hc.
  destruct (find_h3 tag) as [name |];
    destruct (get_current_semester =? 1); try reflexivity.
  - rewrite Hx. reflexivity.
  - destruct (length (get_semester_index tag) =? 2)%nat; [reflexivity |].
    simpl in Hx. rewrite Hx. reflexivity.
Qed.

(** Without marker the links are not asked for, and the missing container
    goes unnoticed. *)
Lemma main_loop_body_no_marker (tag : Tag) (name : string) :
  find_h3 tag = Some name ->
  get_semester_index tag = [] ->
  main_loop_body tag = (Ok tt, []).
Proof.
  intros Hn Hi. unfold main_loop_body, get_institute_name,
    get_schedule_from_first_semester, get_schedule_from_second_semester.
  rewrite Hn, Hi. destruct (get_current_semester =? 1); reflexivity.
Qed.

End Run.

(** C9. Whatever the answer to the request: [check_response] accepts the
    status code 200 and no other; with any other code [get_base_block]
    returns None and [main] returns at once, having made the request and
    nothing else (no directory, no file); and an event of [main] other than
    the request is there only if the code was 200. *)
Theorem fetch_refused_stops_run {env : Env} :
  let status := status_code (requests_get URL HEADERS) in
  (check_response status = true <-> status = 200) /\
  (status <> 200 ->
     get_base_block URL HEADERS = (Ok None, [Get URL HEADERS]) /\
     main = (Ok tt, [Get URL HEADERS])) /\
  (forall e, In e (snd main) -> e <> Get URL HEADERS -> status = 200).
Proof.
  cbv zeta. split; [apply check_response_200 |]. split.
  - intros Hs. split; [now apply get_base_block_refused | now apply main_refused].
  - intros e He Hne.
    destruct (Z.eq_dec (status_code (requests_get URL HEADERS)) 200) as [| Hs];
      [assumption |].
    rewrite (main_refused Hs) in He. simpl in He.
    destruct He as [<- | []]. contradiction.
Qed.

Lemma fetch_refused_stops_run_witness :
  get_base_block (env := env_404) URL HEADERS = (Ok None, [Get URL HEADERS]) /\
  main (env := env_404) = (Ok tt, [Get URL HEADERS]).
Proof.
  apply (proj1 (proj2 (fetch_refused_stops_run (env := env_404)))).
  vm_compute. discriminate.
Defined.

(** C8 as worded fails: of the three blocks of [env_semester1] the second has
    no link container, and the run ends with its error. *)
Lemma spec_partial_failure_fails :
  ~ spec_partial_failure (env := env_semester1).
Proof.
  intros Hspec.
  destruct (Hspec [two_markers_from_0; no_container; one_marker] eq_refl eq_refl)
    as [Hok _].
  - intros tag [<- | [<- | [<- | []]]];
      [left; reflexivity | right; reflexivity | left; reflexivity].
  - vm_compute in Hok. discriminate.
Qed.

(** C8, amended. When the answer is accepted and a block whose links are
    asked for has no link container, the AttributeError is not caught:
    [main] ends with it at that block.  The blocks before it, if their turns
    returned, have saved their files; nothing is done for the blocks after
    it. *)
Theorem missing_container_aborts_run {env : Env} (pre post : list Tag) (bad : Tag) :
  status_code (requests_get URL HEADERS) = 200 ->
  su_column_content (requests_get URL HEADERS) = Some (pre ++ bad :: post) ->
  (forall tag, In tag pre -> fst (main_loop_body tag) = Ok tt) ->
  find_su_clearfix bad = None ->
  extracts_links bad = true ->
  main = (Raise AttributeError,
          Get URL HEADERS :: MakeDirectory "General" :: traces main_loop_body pre).
Proof.
  intros Hs Hc Hpre Hbad Hx.
  rewrite (main_accepted _ Hs Hc).
  pose proof (main_loop_body_no_container bad Hbad Hx) as Hbody.
  rewrite (for_each_stops_at_raise main_loop_body pre post bad AttributeError Hpre)
    by (rewrite Hbody; reflexivity).
  rewrite Hbody. simpl. now rewrite List.app_nil_r.
Qed.

Lemma missing_container_aborts_run_witness :
  main (env := env_semester1)
  = (Raise AttributeError,
     [Get URL HEADERS; MakeDirectory "General";
      SaveFile "Институт Б" "0" "https://www.sevsu.ru/a.xls" (Some "xls")]).
Proof.
  apply (missing_container_aborts_run (env := env_semester1)
           [two_markers_from_0] [one_marker] no_container);
    try reflexivity.
  intros tag [<- | []]. reflexivity.
Defined.

(** ** The INSERT request *)

Section StringAppend.
Implicit Types (s t u : string).

Lemma str_app_cons (a : ascii) s t : String a s +:+ t = String a (s +:+ t).
Proof. reflexivity. Qed.

Lemma str_app_assoc s t u : (s +:+ t) +:+ u = s +:+ (t +:+ u).
Proof.
  induction s as [| a s IH]; [reflexivity |].
  rewrite !str_app_cons. f_equal. exact IH.
Qed.

Lemma str_app_empty_r s : s +:+ "" = s.
Proof.
  induction s as [| a s IH]; [reflexivity |].
  rewrite str_app_cons. f_equal. exact IH.
Qed.

Lemma list_ascii_of_string_app s t :
  list_ascii_of_string (s +:+ t) = list_ascii_of_string s ++ list_ascii_of_string t.
Proof.
  induction s as [| a s IH]; [reflexivity |].
  rewrite str_app_cons. cbn [list_ascii_of_string]. rewrite IH. reflexivity.
Qed.

(** [(s + ', ')[:-2] == s] *)
Lemma str_slice_to_trailing s : str_slice_to (s +:+ ", ") (-2) = s.
Proof.
  unfold str_slice_to, slice_to, clamp.
  rewrite list_ascii_of_string_app, length_app. simpl length.
  replace (Z.to_nat _) with (length (list_ascii_of_string s)).
  - rewrite take_app_length. apply string_of_list_ascii_of_string.
  - destruct (Z.ltb_spec (-2) 0); lia.
Qed.

Lemma with_trailing_concat (sep : string) (l : list string) :
  l <> [] -> Db.with_trailing sep l = String.concat sep l +:+ sep.
Proof.
  induction l as [| x l IH]; [congruence |]. intros _.
  destruct l as [| y l].
  - simpl. now rewrite str_app_empty_r.
  - change (Db.with_trailing sep (x :: y :: l))
      with (x +:+ sep +:+ Db.with_trailing sep (y :: l)).
    rewrite IH by discriminate.
    change (String.concat sep (x :: y :: l))
      with (x +:+ sep +:+ String.concat sep (y :: l)).
    now rewrite !str_app_assoc.
Qed.

End StringAppend.

Section InsertRequest.
Context {value : Type} (format : value -> string).

(** The loop appends each key and each quoted value, a comma and a space
    behind every one of them. *)
Lemma fold_insert_step (kwargs : list (string * value)) (request temp : string) :
  fold_left (Db.insert_step format) kwargs (request, temp)
  = (request +:+ Db.with_trailing ", " (map fst kwargs),
     temp +:+ Db.with_trailing ", " (map (fun item => Db.quoted format (snd item)) kwargs)).
Proof.
  revert request temp. induction kwargs as [| [param v] kwargs IH]; intros request temp.
  - simpl. now rewrite !str_app_empty_r.
  - cbn [fold_left map]. unfold Db.insert_step at 2. cbn [fst snd].
    rewrite IH. cbn [Db.with_trailing fold_right]. unfold Db.quoted.
    now rewrite !str_app_assoc.
Qed.

End InsertRequest.

(** C10. For every table name and every non-empty keyword mapping, the
    request of [insert_datas_to_db] is [INSERT INTO name (], the keys of the
    mapping separated by [, ], [)], a line feed, [VALUES (], the values of
    the mapping each between single quotes and separated by [, ], and [);]:
    as many columns as values, both in the order of the mapping. *)
Theorem insert_request_columns_and_values {value : Type} (format : value -> string)
        (name : string) (kwargs : list (string * value)) :
  kwargs <> [] ->
  let columns := map fst kwargs in
  let values := map (fun item => Db.quoted format (snd item)) kwargs in
  Db.insert_datas_to_db format name kwargs
  = "INSERT INTO " +:+ name +:+ " (" +:+ String.concat ", " columns +:+ ")" +:+ Db.LF
    +:+ "VALUES (" +:+ String.concat ", " values +:+ ");" /\
  length columns = length kwargs /\
  length values = length kwargs.
Proof.
  intros Hne columns values. split; [| split; apply length_map].
  unfold Db.insert_datas_to_db. rewrite fold_insert_step. cbn [fst snd].
  fold columns. fold values.
  rewrite !with_trailing_concat
    by (subst columns values; destruct kwargs; [congruence | discriminate]).
  rewrite <- !str_app_assoc. rewrite str_slice_to_trailing.
  rewrite !str_app_assoc.
  replace (")" +:+ Db.LF +:+ "VALUES (" +:+ String.concat ", " values +:+ ", ")
    with ((")" +:+ Db.LF +:+ "VALUES (" +:+ String.concat ", " values) +:+ ", ")
    by (now rewrite !str_app_assoc).
  rewrite <- !str_app_assoc. rewrite str_slice_to_trailing.
  now rewrite !str_app_assoc.
Qed.

Lemma insert_request_columns_and_values_witness :
  Db.insert_datas_to_db Db.format_pyval "pair"
    [("day", Db.VStr "1"); ("lesson_number", Db.VInt 2); ("auditorium", Db.VStr "8")]
  = "INSERT INTO pair (day, lesson_number, auditorium)" +:+ Db.LF
    +:+ "VALUES ('1', '2', '8');".
Proof.
  apply (insert_request_columns_and_values Db.format_pyval "pair"
           [("day", Db.VStr "1"); ("lesson_number", Db.VInt 2); ("auditorium", Db.VStr "8")]).
  discriminate.
Defined.

(** ** Further properties of the segmentation *)

Section SegmentationBounds.
Context {env : Env}.
Implicit Types (soup : Tag) (L : list string).


Lemma get_files_url_In soup L (x : string) :
  get_files_url soup = Ok L ->
  In x L ->
  exists anchors,
    find_su_clearfix soup = Some anchors /\
    In x (map href anchors) /\
    (get_extension x = Some "xls" \/ get_extension x = Some "xlsx").
Proof.
  unfold get_files_url. destruct (find_su_clearfix soup) as [anchors |]; [| discriminate].
  intros [= <-] Hx. apply filter_In in Hx as [Hin Htest].
  exists anchors. split; [reflexivity |]. split; [exact Hin |].
  apply orb_true_iff in Htest. now rewrite !opt_eqb_Some in Htest.
Qed.

Lemma slice_to_In {A} (l : list A) (k : Z) (x : A) : In x (slice_to l k) -> In x l.
Proof.
  unfold slice_to. intros Hx.
  rewrite <- (take_drop (clamp (length l) k) l). apply in_or_app. now left.
Qed.

Lemma slice_from_In {A} (l : list A) (k : Z) (x : A) : In x (slice_from l k) -> In x l.
Proof.
  unfold slice_from. intros Hx.
  rewrite <- (take_drop (clamp (length l) k) l). apply in_or_app. now right.
Qed.

Lemma get_semester_index_length soup :
  (length (get_semester_index soup) <= length (find_all_p soup))%nat.
Proof.
  unfold get_semester_index.
  etransitivity; [apply List.filter_length_le |].
  unfold range. now rewrite !length_map, length_seq.
Qed.

(** The outcome of each function, by the number of markers. *)
Lemma first_semester_cases soup :
  (length (get_semester_index soup) = 2%nat /\
   exists f l, get_semester_index soup = [f; l] /\
     get_schedule_from_first_semester soup
     = (do links <- get_files_url soup; Ok (slice_to links (l - f - 1)))) \/
  (length (get_semester_index soup) <> 2%nat /\
   get_schedule_from_first_semester soup = Ok []).
Proof.
  destruct (Nat.eq_dec (length (get_semester_index soup)) 2%nat) as [H2 | H2].
  - left. split; [exact H2 |].
    unfold get_schedule_from_first_semester.
    destruct (get_semester_index soup) as [| f [| l [| ? ?]]]; try discriminate.
    exists f, l. split; [reflexivity |].
    destruct (get_files_url soup); reflexivity.
  - right. split; [exact H2 | now apply first_semester_not_two].
Qed.

Lemma second_semester_cases soup :
  (exists k, get_schedule_from_second_semester soup
             = (do links <- get_files_url soup; Ok (slice_from links k)) /\
             (length (get_semester_index soup) = 1%nat \/
              length (get_semester_index soup) = 2%nat)) \/
  (length (get_semester_index soup) <> 1%nat /\
   length (get_semester_index soup) <> 2%nat /\
   get_schedule_from_second_semester soup = Ok []).
Proof.
  unfold get_schedule_from_second_semester.
  destruct (get_semester_index soup) as [| f [| l [| ? ?]]]; simpl.
  - right. repeat split; lia.
  - left. exists (f + 1). split; [| now left].
    destruct (get_files_url soup); reflexivity.
  - left. exists (l - 1). split; [| now right].
    destruct (get_files_url soup); reflexivity.
  - right. repeat split; lia.
Qed.

End SegmentationBounds.

(** X1. With two markers [f] and [l] and [n] links, the first semester gets
    [min (l - f - 1) n] links and the second gets [n - min (l - 1) n]: a
    bound beyond the links raises nothing and is cut to their number. *)
Theorem two_markers_link_counts {env : Env} (soup : Tag) (f l : Z)
        (L s1 s2 : list string) :
  get_semester_index soup = [f; l] ->
  get_files_url soup = Ok L ->
  get_schedule_from_first_semester soup = Ok s1 ->
  get_schedule_from_second_semester soup = Ok s2 ->
  length s1 = Nat.min (Z.to_nat (l - f - 1)) (length L) /\
  length s2 = (length L - Nat.min (Z.to_nat (l - 1)) (length L))%nat.
Proof.
  intros Hi HL H1 H2.
  pose proof (two_markers_ordered soup f l Hi) as Hfl.
  rewrite (first_semester_two_markers soup f l L Hi HL) in H1.
  rewrite (second_semester_two_markers soup f l L Hi HL) in H2.
  injection H1 as <-. injection H2 as <-.
  rewrite slice_to_nonneg, slice_from_nonneg by lia.
  rewrite length_take, length_drop. lia.
Qed.

Lemma two_markers_link_counts_witness :
  length ["/a.xls"] = Nat.min (Z.to_nat (3 - 1 - 1)) 5 /\
  length ["/c.XLS"; "/d.xls"; "/e.xlsx"] = (5 - Nat.min (Z.to_nat (3 - 1)) 5)%nat.
Proof.
  exact (two_markers_link_counts (env := env_semester1) two_markers 1 3
           ["/a.xls"; "/b.xlsx"; "/c.XLS"; "/d.xls"; "/e.xlsx"]
           ["/a.xls"] ["/c.XLS"; "/d.xls"; "/e.xlsx"]
           eq_refl eq_refl eq_refl eq_refl).
Defined.

(** X2. With two markers whose gap reaches past the links
    ([l - f - 1 >= len(L)]), the first semester gets every link and the
    second gets none; nothing is raised. *)
Theorem two_markers_gap_past_links {env : Env} (soup : Tag) (f l : Z) (L : list string) :
  get_semester_index soup = [f; l] ->
  get_files_url soup = Ok L ->
  Z.of_nat (length L) <= l - f - 1 ->
  get_schedule_from_first_semester soup = Ok L /\
  get_schedule_from_second_semester soup = Ok [].
Proof.
  intros Hi HL Hgap.
  pose proof (two_markers_ordered soup f l Hi) as Hfl.
  rewrite (first_semester_two_markers soup f l L Hi HL).
  rewrite (second_semester_two_markers soup f l L Hi HL).
  rewrite slice_to_nonneg, slice_from_nonneg by lia.
  rewrite take_ge, drop_ge by lia. split; reflexivity.
Qed.

Lemma two_markers_gap_past_links_witness :
  get_schedule_from_first_semester (env := env_semester1) three_paragraphs_one_link
    = Ok ["/only.xls"] /\
  get_schedule_from_second_semester (env := env_semester1) three_paragraphs_one_link
    = Ok [].
Proof.
  apply (two_markers_gap_past_links (env := env_semester1)
           three_paragraphs_one_link 0 2 ["/only.xls"]);
    [reflexivity | reflexivity | simpl; lia].
Defined.

Section SegmentationOutcomes.
Context {env : Env}.
Implicit Types (soup : Tag) (e : exn).




Lemma first_semester_In soup (s : list string) (x : string) :
  get_schedule_from_first_semester soup = Ok s ->
  In x s ->
  exists L, get_files_url soup = Ok L /\ In x L.
Proof.
  intros Hs Hx.
  destruct (first_semester_cases soup) as [(_ & f & l & _ & Heq) | (_ & Heq)];
    rewrite Heq in Hs.
  - destruct (get_files_url soup) as [L |] eqn:HL; [| discriminate].
    injection Hs as <-. apply slice_to_In in Hx. eauto.
  - injection Hs as <-. destruct Hx.
Qed.

Lemma second_semester_In soup (s : list string) (x : string) :
  get_schedule_from_second_semester soup = Ok s ->
  In x s ->
  exists L, get_files_url soup = Ok L /\ In x L.
Proof.
  intros Hs Hx.
  destruct (second_semester_cases soup) as [(k & Heq & _) | (_ & _ & Heq)];
    rewrite Heq in Hs.
  - destruct (get_files_url soup) as [L |] eqn:HL; [| discriminate].
    injection Hs as <-. apply slice_from_In in Hx. eauto.
  - injection Hs as <-. destruct Hx.
Qed.

End SegmentationOutcomes.


(** X4. Every link either function returns is the [href] of an anchor of the
    link container and has passed the test of [get_files_url]: its extension
    is [xls] or [xlsx]. *)
Theorem returned_links_are_filtered_anchors {env : Env} (soup : Tag)
        (s : list string) (x : string) :
  get_schedule_from_first_semester soup = Ok s \/
  get_schedule_from_second_semester soup = Ok s ->
  In x s ->
  exists anchors,
    find_su_clearfix soup = Some anchors /\
    In x (map href anchors) /\
    (get_extension x = Some "xls" \/ get_extension x = Some "xlsx").
Proof.
  intros [Hs | Hs] Hx.
  - destruct (first_semester_In soup s x Hs Hx) as (L & HL & HxL).
    exact (get_files_url_In soup L x HL HxL).
  - destruct (second_semester_In soup s x Hs Hx) as (L & HL & HxL).
    exact (get_files_url_In soup L x HL HxL).
Qed.

Lemma returned_links_are_filtered_anchors_witness :
  exists anchors,
    find_su_clearfix one_marker = Some anchors /\
    In "/b.xlsx" (map href anchors) /\
    (get_extension (env := env_semester2) "/b.xlsx" = Some "xls" \/
     get_extension (env := env_semester2) "/b.xlsx" = Some "xlsx").
Proof.
  apply (returned_links_are_filtered_anchors (env := env_semester2) one_marker
           ["/b.xlsx"] "/b.xlsx").
  - right. reflexivity.
  - simpl. now left.
Defined.

(** X5. A fragment with fewer than two paragraphs has no first-semester
    link and one without paragraph has no second-semester link, whether or
    not it has a link container: there cannot be enough markers. *)
Theorem few_paragraphs_no_links {env : Env} (soup : Tag) :
  (length (find_all_p soup) < 2)%nat ->
  get_schedule_from_first_semester soup = Ok [] /\
  (find_all_p soup = [] -> get_schedule_from_second_semester soup = Ok []).
Proof.
  intros Hlen. pose proof (get_semester_index_length soup) as Hle. split.
  - apply first_semester_not_two. lia.
  - intros Hnil. rewrite Hnil in Hle. simpl in Hle.
    apply second_semester_not_one_or_two; lia.
Qed.

Lemma few_paragraphs_no_links_witness :
  get_schedule_from_first_semester (env := env_semester1) one_marker = Ok [].
Proof.
  apply (few_paragraphs_no_links (env := env_semester1) one_marker).
  simpl. lia.
Defined.

(** ** Further properties of the run *)

Lemma for_each_emit {A} (g : A -> event) (l : list A) :
  for_each (fun x => emit (g x)) l = (Ok tt, map g l).
Proof.
  induction l as [| x l IH]; [reflexivity |].
  cbn [for_each]. unfold io_bind. simpl. rewrite IH. reflexivity.
Qed.

Lemma for_each_outcome {A} (body : A -> IO unit) (l : list A) :
  fst (for_each body l) = Ok tt \/
  exists x e, In x l /\ fst (body x) = Raise e /\ fst (for_each body l) = Raise e.
Proof.
  induction l as [| x l IH]; [now left |].
  cbn [for_each]. unfold io_bind.
  destruct (fst (body x)) as [[] | e] eqn:Hx; simpl.
  - destruct IH as [IH | (y & e & Hy & Hbody & Hrun)]; [now left |].
    right. exists y, e. auto.
  - right. exists x, e. auto.
Qed.


(** Every event of a loop is an event of one of its turns. *)
Lemma for_each_events {A} (body : A -> IO unit) (l : list A) (ev : event) :
  In ev (snd (for_each body l)) -> exists x, In x l /\ In ev (snd (body x)).
Proof.
  induction l as [| x l IH]; [intros [] |].
  cbn [for_each]. unfold io_bind.
  destruct (fst (body x)) as [[] | e]; simpl.
  - intros Hev. apply in_app_or in Hev as [Hev | Hev]; [eauto |].
    destruct (IH Hev) as (y & Hy & Hin). eauto.
  - eauto.
Qed.

Lemma combine_seq_map {A B} (f : A -> B) (l : list A) (a : nat) :
  combine (seq a (length (map f l))) (map f l)
  = map (fun ii => (fst ii, f (snd ii))) (combine (seq a (length l)) l).
Proof.
  revert a. induction l as [| x l IH]; intros a; [reflexivity |].
  simpl. f_equal. apply IH.
Qed.

Lemma combine_seq_lookup {A B} (g : nat * A -> B) (l : list A) (a i : nat) :
  map g (combine (seq a (length l)) l) !! i
  = (fun x => g ((a + i)%nat, x)) <$> l !! i.
Proof.
  revert a i. induction l as [| x l IH]; intros a [| i]; try reflexivity.
  - simpl. now rewrite Nat.add_0_r.
  - simpl. rewrite IH. now rewrite Nat.add_succ_r.
Qed.

Section RunOutcomes.
Context {env : Env}.
Implicit Types (tag : Tag) (e : exn).

(** One turn of the loop: the heading first, then the schedule, then one
    call of [save_file] for each link. *)
Lemma main_loop_body_outcome tag :
  main_loop_body tag =
  match get_institute_name tag with
  | Raise e => (Raise e, [])
  | Ok name =>
      match selected_schedule tag with
      | Raise e => (Raise e, [])
      | Ok links =>
          (Ok tt, map (fun ii => save_call name (fst ii) (snd ii)) (enumerate links))
      end
  end.
Proof.
  assert (Hsaves : forall name links,
    match map (fun link => BASE_URL +:+ link) links with
    | [] => io_ret tt
    | _ :: _ =>
        for_each
          (fun ii =>
             emit (SaveFile (transliteration_to_en_from_ru name) (str_of_nat (fst ii))
                            (snd ii) (get_extension (snd ii))))
          (enumerate (map (fun link => BASE_URL +:+ link) links))
    end
    = (Ok tt, map (fun ii => save_call name (fst ii) (snd ii)) (enumerate links))).
  { intros name [| link links]; [reflexivity |].
    cbn [map]. rewrite for_each_emit. unfold enumerate.
    change ((BASE_URL +:+ link) :: map (fun link0 => BASE_URL +:+ link0) links)
      with (map (fun link0 => BASE_URL +:+ link0) (link :: links)).
    rewrite combine_seq_map, map_map. reflexivity. }
  unfold main_loop_body, selected_schedule.
  destruct (get_current_semester =? 1);
    destruct (get_institute_name tag) as [name | e]; try reflexivity; simpl.
  - destruct (get_schedule_from_first_semester tag) as [links | e]; [| reflexivity].
    unfold io_bind, lift. cbn [fst snd bind]. rewrite Hsaves. reflexivity.
  - destruct (get_schedule_from_second_semester tag) as [links | e]; [| reflexivity].
    unfold io_bind, lift. cbn [fst snd bind]. rewrite Hsaves. reflexivity.
Qed.



Lemma selected_schedule_In tag (links : list string) (x : string) :
  selected_schedule tag = Ok links ->
  In x links ->
  exists L, get_files_url tag = Ok L /\ In x L.
Proof.
  unfold selected_schedule. destruct (get_current_semester =? 1).
  - apply first_semester_In.
  - apply second_semester_In.
Qed.



Lemma main_loop_body_events tag (ev : event) :
  In ev (snd (main_loop_body tag)) ->
  exists name links (i : nat) link,
    find_h3 tag = Some name /\
    selected_schedule tag = Ok links /\
    links !! i = Some link /\
    ev = save_call name i link.
Proof.
  rewrite main_loop_body_outcome. unfold get_institute_name.
  destruct (find_h3 tag) as [name |]; [| intros []].
  destruct (selected_schedule tag) as [links |]; [| intros []].
  simpl. intros Hev. apply list_elem_of_In, list_elem_of_lookup in Hev as [i Hi].
  unfold enumerate in Hi. rewrite combine_seq_lookup in Hi.
  destruct (links !! i) as [link |] eqn:Hlink; [| discriminate].
  injection Hi as <-. exists name, links, i, link. auto.
Qed.

End RunOutcomes.

Section RunFacts.
Context {env : Env}.

Lemma main_no_column :
  status_code (requests_get URL HEADERS) = 200 ->
  su_column_content (requests_get URL HEADERS) = None ->
  main = (Raise AttributeError, [Get URL HEADERS]).
Proof.
  intros Hs Hc. unfold main, get_base_block, check_response, io_bind. simpl.
  rewrite Hs, Hc. reflexivity.
Qed.

Lemma loop_events_are_saves (column : list Tag) :
  Forall is_save (snd (for_each main_loop_body column)).
Proof.
  rewrite List.Forall_forall. intros ev Hev.
  apply for_each_events in Hev as (tag & _ & Hev).
  apply main_loop_body_events in Hev as (name & links & i & link & _ & _ & _ & ->).
  exact I.
Qed.


End RunFacts.



(** X7. A turn of the loop on a block with heading [name] whose selected
    schedule is [links] returns and calls [save_file] once for every link,
    in the order of the links: the call at position [i] names the file
    [str(i)], takes the address [BASE_URL + links[i]] and the directory of
    the transliterated heading. *)
Theorem loop_body_saves_each_link {env : Env} (tag : Tag) (name : string)
        (links : list string) :
  find_h3 tag = Some name ->
  selected_schedule tag = Ok links ->
  exists tr,
    main_loop_body tag = (Ok tt, tr) /\
    length tr = length links /\
    forall i : nat, tr !! i = save_call name i <$> links !! i.
Proof.
  intros Hname Hsel. rewrite main_loop_body_outcome.
  unfold get_institute_name. rewrite Hname, Hsel.
  eexists. split; [reflexivity |]. split.
  - unfold enumerate. now rewrite length_map, length_combine, length_seq, Nat.min_id.
  - intros i. unfold enumerate. rewrite combine_seq_lookup. reflexivity.
Qed.

Lemma loop_body_saves_each_link_witness :
  exists tr,
    main_loop_body (env := env_semester2) two_markers = (Ok tt, tr) /\
    length tr = 3%nat /\
    tr !! 1%nat = Some (SaveFile "Институт А" "1" "https://www.sevsu.ru/d.xls" (Some "xls")).
Proof.
  destruct (loop_body_saves_each_link (env := env_semester2) two_markers
              "Институт А" ["/c.XLS"; "/d.xls"; "/e.xlsx"] eq_refl eq_refl)
    as (tr & Hrun & Hlen & Hcalls).
  exists tr. split; [exact Hrun |]. split; [exact Hlen |].
  rewrite Hcalls. reflexivity.
Defined.



(** X9. Whatever the page, the events of [main] are the request alone, or
    the request, then the directory [General], then calls of [save_file]
    only: there is one request and at most one directory, and no file is
    saved before the directory is made. *)
Theorem run_trace_shape {env : Env} :
  snd main = [Get URL HEADERS] \/
  exists saves,
    snd main = Get URL HEADERS :: MakeDirectory "General" :: saves /\
    Forall is_save saves.
Proof.
  destruct (Z.eq_dec (status_code (requests_get URL HEADERS)) 200) as [Hs | Hs].
  - destruct (su_column_content (requests_get URL HEADERS)) as [column |] eqn:Hc.
    + right. rewrite (main_accepted column Hs Hc). cbn [snd].
      eexists. split; [reflexivity | apply loop_events_are_saves].
    + left. now rewrite (main_no_column Hs Hc).
  - left. now rewrite (main_refused Hs).
Qed.

(** X10. With status 200 and no [div.su-column-content] in the page, [main]
    ends with an AttributeError right after the request; and the directory
    [General] is made exactly when the status is 200 and that element is
    present, even if it holds no block. *)
Theorem directory_made_iff_page_accepted {env : Env} :
  (status_code (requests_get URL HEADERS) = 200 ->
   su_column_content (requests_get URL HEADERS) = None ->
   main = (Raise AttributeError, [Get URL HEADERS])) /\
  (In (MakeDirectory "General") (snd main) <->
   status_code (requests_get URL HEADERS) = 200 /\
   su_column_content (requests_get URL HEADERS) <> None).
Proof.
  split; [apply main_no_column |].
  destruct (Z.eq_dec (status_code (requests_get URL HEADERS)) 200) as [Hs | Hs].
  - destruct (su_column_content (requests_get URL HEADERS)) as [column |] eqn:Hc.
    + rewrite (main_accepted column Hs Hc). cbn [snd]. split.
      * intros _. split; [exact Hs | discriminate].
      * intros _. right. now left.
    + rewrite (main_no_column Hs Hc). cbn [snd]. split.
      * intros [Hev | []]. discriminate.
      * intros [_ Hn]. contradiction.
  - rewrite (main_refused Hs). cbn [snd]. split.
    + intros [Hev | []]. discriminate.
    + intros [Hs' _]. contradiction.
Qed.

Lemma directory_made_iff_page_accepted_witness :
  main (env := sample_env 1 {| status_code := 200; su_column_content := None |})
  = (Raise AttributeError, [Get URL HEADERS]).
Proof.
  apply (proj1 (directory_made_iff_page_accepted
                  (env := sample_env 1 {| status_code := 200;
                                          su_column_content := None |})));
    reflexivity.
Defined.

(** X11. Every file [main] saves comes from the page: the call of
    [save_file] carries the transliterated heading of one of the blocks and
    the address [BASE_URL + link], where [link] is the [href] of an anchor
    of that block's link container whose extension is [xls] or [xlsx]. *)
Theorem saved_files_come_from_page {env : Env} (path name url : string)
        (extension : option string) :
  In (SaveFile path name url extension) (snd main) ->
  exists column tag heading anchors link,
    su_column_content (requests_get URL HEADERS) = Some column /\
    In tag column /\
    find_h3 tag = Some heading /\
    path = transliteration_to_en_from_ru heading /\
    find_su_clearfix tag = Some anchors /\
    In link (map href anchors) /\
    (get_extension link = Some "xls" \/ get_extension link = Some "xlsx") /\
    url = BASE_URL +:+ link.
Proof.
  intros Hev.
  destruct (Z.eq_dec (status_code (requests_get URL HEADERS)) 200) as [Hs | Hs];
    [| rewrite (main_refused Hs) in Hev; destruct Hev as [? | []]; discriminate].
  destruct (su_column_content (requests_get URL HEADERS)) as [column |] eqn:Hc;
    [| rewrite (main_no_column Hs Hc) in Hev; destruct Hev as [? | []]; discriminate].
  rewrite (main_accepted column Hs Hc) in Hev. cbn [snd] in Hev.
  destruct Hev as [Hev | [Hev | Hev]]; try discriminate.
  apply for_each_events in Hev as (tag & Htag & Hev).
  apply main_loop_body_events in Hev
    as (heading & links & i & link & Hh & Hsel & Hlink & Hcall).
  injection Hcall as -> _ -> _.
  assert (Hin : In link links)
    by (apply list_elem_of_In, list_elem_of_lookup; eauto).
  destruct (selected_schedule_In tag links link Hsel Hin) as (L & HL & HinL).
  destruct (get_files_url_In tag L link HL HinL) as (anchors & Ha & Hhref & Hext).
  exists column, tag, heading, anchors, link. auto 10.
Qed.

Lemma saved_files_come_from_page_witness :
  exists column tag heading anchors link,
    su_column_content (requests_get (Env := env_semester1) URL HEADERS) = Some column /\
    In tag column /\
    find_h3 tag = Some heading /\
    "Институт Б" = transliteration_to_en_from_ru (Env := env_semester1) heading /\
    find_su_clearfix tag = Some anchors /\
    In link (map href anchors) /\
    (get_extension (env := env_semester1) link = Some "xls" \/
     get_extension (env := env_semester1) link = Some "xlsx") /\
    "https://www.sevsu.ru/a.xls" = BASE_URL +:+ link.
Proof.
  apply (saved_files_come_from_page (env := env_semester1)
           "Институт Б" "0" "https://www.sevsu.ru/a.xls" (Some "xls")).
  vm_compute. right. right. left. reflexivity.
Defined.

(** ** Further properties of the requests *)

(** [(s + ab)[:-2] == s] for any two characters [a] and [b]. *)
Lemma str_slice_to_two (s : string) (a b : ascii) :
  str_slice_to (s +:+ String a (String b EmptyString)) (-2) = s.
Proof.
  unfold str_slice_to, slice_to, clamp.
  rewrite list_ascii_of_string_app, length_app. simpl length.
  replace (Z.to_nat _) with (length (list_ascii_of_string s)).
  - rewrite take_app_length. apply string_of_list_ascii_of_string.
  - destruct (Z.ltb_spec (-2) 0); lia.
Qed.

Lemma fold_create_table_step {value : Type} (format : value -> string)
      (kwargs : list (string * value)) (request column : string) :
  fold_left (Db.create_table_step format) kwargs (request +:+ column)
  = request +:+ String.concat ("," +:+ Db.LF)
                  (column :: map (Db.column_definition format) kwargs).
Proof.
  revert request column.
  induction kwargs as [| item kwargs IH]; intros request column; [reflexivity |].
  cbn [fold_left map]. unfold Db.create_table_step at 2.
  replace ((request +:+ column) +:+ "," +:+ Db.LF +:+ fst item +:+ " " +:+ format (snd item))
    with ((request +:+ column +:+ "," +:+ Db.LF) +:+ Db.column_definition format item)
    by (unfold Db.column_definition; now rewrite !str_app_assoc).
  rewrite IH.
  change (String.concat ("," +:+ Db.LF)
            (column :: Db.column_definition format item
                         :: map (Db.column_definition format) kwargs))
    with (column +:+ ("," +:+ Db.LF)
          +:+ String.concat ("," +:+ Db.LF)
                (Db.column_definition format item
                   :: map (Db.column_definition format) kwargs)).
  now rewrite !str_app_assoc.
Qed.

(** X12. Without keyword argument the two [[:-2]] of [insert_datas_to_db]
    cut off the opening parentheses instead of a trailing separator: the
    request is [INSERT INTO name)], a line feed and [VALUES);]. *)
Theorem insert_request_without_columns {value : Type} (format : value -> string)
        (name : string) :
  Db.insert_datas_to_db format name []
  = "INSERT INTO " +:+ name +:+ ")" +:+ Db.LF +:+ "VALUES);".
Proof.
  unfold Db.insert_datas_to_db. cbn [fold_left fst snd].
  rewrite <- (str_app_assoc "INSERT INTO " name " (").
  rewrite (str_slice_to_two ("INSERT INTO " +:+ name) " " "(").
  replace (("INSERT INTO " +:+ name) +:+ ")" +:+ Db.LF +:+ "VALUES (" +:+ "")
    with ((("INSERT INTO " +:+ name) +:+ ")" +:+ Db.LF +:+ "VALUES") +:+ " (")
    by (now rewrite !str_app_assoc).
  rewrite str_slice_to_two. now rewrite !str_app_assoc.
Qed.

(** X13. For every table name and every mapping, empty or not, the request
    of [create_table_request] is [CREATE TABLE IF NOT EXISTS name(], a line
    feed, the column [ID INTEGER PRIMARY KEY AUTOINCREMENT] followed by one
    definition [param type] for each item of the mapping in its order, the
    definitions separated by a comma and a line feed, and [);]. *)
Theorem create_table_request_columns {value : Type} (format : value -> string)
        (name : string) (kwargs : list (string * value)) :
  Db.create_table_request format name kwargs
  = "CREATE TABLE IF NOT EXISTS " +:+ name +:+ "(" +:+ Db.LF
    +:+ String.concat ("," +:+ Db.LF)
          ("ID INTEGER PRIMARY KEY AUTOINCREMENT"
             :: map (Db.column_definition format) kwargs)
    +:+ ");".
Proof.
  unfold Db.create_table_request.
  replace ("CREATE TABLE IF NOT EXISTS " +:+ name +:+ "(" +:+ Db.LF
           +:+ "ID INTEGER PRIMARY KEY AUTOINCREMENT")
    with (("CREATE TABLE IF NOT EXISTS " +:+ name +:+ "(" +:+ Db.LF)
          +:+ "ID INTEGER PRIMARY KEY AUTOINCREMENT")
    by (now rewrite !str_app_assoc).
  rewrite fold_create_table_step. now rewrite !str_app_assoc.
Qed.
